(** * Wallets and histories: the repository and its use cases

    A shallow embedding of [app/models.py], [app/exceptions.py],
    [app/repositories/wallet.py] and [app/api/wallets/histories/use_cases.py].

    Python classes become modules, their methods functions of the module.
    The two tables are finite maps from the primary key to the other
    columns.  Repository methods run in a state-and-error monad over the
    session they are handed; a use case runs its block under the
    [async with] statement it is written with.

    What the embedding takes from the framework (SQLAlchemy, pydantic,
    SQLite):
    - storage enforces the primary keys and [CHECK (amount > 0)]; the
      database is opened without [PRAGMA foreign_keys=ON], so SQLite
      neither checks the foreign key of [histories.wallet_id] nor
      performs its [ON DELETE CASCADE];
    - the session is configured with [autoflush=False]: a row marked by
      [session.delete] leaves its table at the next [flush]; deleting a
      wallet marks the histories of its collection, by the cascade of
      the relationship;
    - an [AsyncSession] is an asynchronous context manager that closes
      the session and commits nothing; the [async_sessionmaker] is not
      an asynchronous context manager;
    - the constructor of a mapped class takes the attributes the class
      maps, by keyword;
    - [model_validate] reads an object that is not a dict by its
      attributes only when the configuration sets [from_attributes];
    - integer primary keys are generated as SQLite does for a rowid:
      one more than the largest key of the table, 1 for an empty table. *)

From stdpp Require Import gmap strings list fin_maps.
From Stdlib Require Import ZArith.

Local Open Scope Z_scope.

(** ** app/exceptions.py *)

Inductive exn : Type :=
| AppException
| NotFound (resource : string) (resource_id : Z)
| IntegrityError   (* raised by storage at flush: a constraint is violated *)
| ValidationError  (* raised by [model_validate] *)
| TypeError.       (* raised by a call with a keyword the callee does not
                      declare, and by [async with] on an object that is
                      no asynchronous context manager *)

Definition status_code (e : exn) : option Z :=
  match e with
  | AppException => Some 500
  | NotFound _ _ => Some 404
  | _ => None
  end.

Definition message (e : exn) : option string :=
  match e with
  | AppException => Some "Internal Server Error"%string
  | NotFound _ _ => Some "Not Found"%string
  | _ => None
  end.

Definition details (e : exn) : option (string * Z) :=
  match e with
  | NotFound resource resource_id => Some (resource, resource_id)
  | _ => None
  end.

Inductive result (A : Type) : Type :=
| Ok (a : A)
| Raise (e : exn).

Arguments Ok {A} a.
Arguments Raise {A} e.

#[global] Instance result_ret : MRet result := λ A a, Ok a.
#[global] Instance result_bind : MBind result :=
  λ A B f r, match r with Ok a => f a | Raise e => Raise e end.

(** A call that passes arguments by keyword: every keyword has to be a
    name the callee declares (a parameter of the function, an attribute
    of the mapped class for its constructor), or the call raises. *)
Definition bind_keywords (declared keywords : list string) : result unit :=
  if forallb (λ k, bool_decide (k ∈ declared)) keywords
  then Ok ()
  else Raise TypeError.

(** ** app/models.py *)

Inductive HistoryType : Type := INCOME | OUTCOME.

#[global] Instance HistoryType_eq_dec : EqDecision HistoryType.
Proof. solve_decision. Defined.

(** [BaseModel]: [model_config = ConfigDict(from_attribute=True)]. *)
Definition model_config : list (string * bool) :=
  [("from_attribute"%string, true)].

(** The setting pydantic reads is [from_attributes]; it is [False]
    unless the configuration sets it. *)
Definition from_attributes : bool :=
  match filter (λ kv : string * bool, kv.1 = "from_attributes"%string)
               model_config with
  | kv :: _ => kv.2
  | [] => false
  end.

(** [Model.model_validate(obj)] for an object [obj] that is neither a
    dict nor an instance of the model: its attributes are read and
    validated ([fields]) under [from_attributes], and the validation
    fails otherwise. *)
Definition model_validate {A B} (fields : A → result B) (obj : A)
    : result B :=
  if from_attributes then fields obj else Raise ValidationError.

Module History.
Record t : Type := mk {
  history_id : Z;
  name : string;
  amount : Z;
  type : HistoryType;
  history_at : Z;
  wallet_id : Z
}.

(** [h.amount if h.type == HistoryType.INCOME else -h.amount] *)
Definition signed_amount (h : t) : Z :=
  if decide (type h = INCOME) then amount h else - amount h.
End History.

Module Wallet.
Record t : Type := mk {
  wallet_id : Z;
  name : string;
  histories : list History.t
}.

(** Python's [sum] adds the items from the left, starting at 0. *)
Definition balance (self : t) : Z :=
  fold_left (λ acc h, acc + History.signed_amount h) (histories self) 0.
End Wallet.

(** ** Storage: the two tables *)

Record history_row : Type := HistoryRow {
  row_name : string;
  row_amount : Z;
  row_type : HistoryType;
  row_wallet_id : Z;
  row_history_at : Z
}.

#[global] Instance history_row_eq_dec : EqDecision history_row.
Proof. solve_decision. Defined.

Record DB : Type := mkDB {
  wallets : gmap Z string;
  histories : gmap Z history_row
}.

(** The key an INSERT generates. *)
Definition max_key {A} (m : gmap Z A) : option Z :=
  map_fold (λ k _ acc, Some (from_option (Z.max k) k acc)) None m.

Definition next_id {A} (m : gmap Z A) : Z :=
  match max_key m with
  | None => 1
  | Some k => k + 1
  end.

(** [CHECK (amount > 0)], as storage evaluates it on a row of
    [histories] that is inserted or updated.  The foreign key of
    [wallet_id] is declared but not enforced. *)
Definition row_accepted (r : history_row) : bool :=
  bool_decide (0 < row_amount r).

(** ** The mapped classes *)

Module HistoryORM.
Record t : Type := mk {
  history_id : Z;
  name : string;
  amount : Z;
  type : HistoryType;
  wallet_id : Z;
  history_at : Z
}.

(** The attributes the class maps: its columns and its relationship. *)
Definition mapped : list string :=
  ["history_id"; "name"; "amount"; "type"; "wallet_id"; "history_at";
   "wallet"]%string.

(** A row of the table read as an instance, and the columns an
    instance writes. *)
Definition load (k : Z) (r : history_row) : t :=
  mk k (row_name r) (row_amount r) (row_type r) (row_wallet_id r)
     (row_history_at r).

Definition row (self : t) : history_row :=
  HistoryRow (name self) (amount self) (type self) (wallet_id self)
             (history_at self).

(** The fields of [History] read from the attributes of an instance;
    [amount] is a [PositiveInt]. *)
Definition fields (self : t) : result History.t :=
  if decide (0 < amount self)
  then Ok (History.mk (history_id self) (name self) (amount self)
                      (type self) (history_at self) (wallet_id self))
  else Raise ValidationError.

(** [History.model_validate(self)] *)
Definition to_entity (self : t) : result History.t :=
  model_validate fields self.

Definition update (self : t) (history : History.t) : t :=
  mk (history_id self) (History.name history) (History.amount history)
     (History.type history) (History.wallet_id history)
     (History.history_at history).
End HistoryORM.

Module WalletORM.
Record t : Type := mk {
  wallet_id : Z;
  name : string;
  histories : list HistoryORM.t
}.

Definition mapped : list string := ["wallet_id"; "name"; "histories"]%string.

(** The fields of [Wallet] read from the attributes of an instance,
    the histories each as a [History]. *)
Definition fields (self : t) : result Wallet.t :=
  hs ← mapM HistoryORM.fields (histories self);
  Ok (Wallet.mk (wallet_id self) (name self) hs).

(** [Wallet.model_validate(self)] *)
Definition to_entity (self : t) : result Wallet.t :=
  model_validate fields self.

Definition update (self : t) (wallet : Wallet.t)
    (histories : list HistoryORM.t) : t :=
  mk (wallet_id self) (Wallet.name wallet) histories.
End WalletORM.

(** ** The session *)

Record AsyncSession : Type := mkSession {
  db : DB;                        (* the tables as the session sees them *)
  deleted_wallets : gset Z;       (* marked by [session.delete], not flushed *)
  deleted_histories : gset Z
}.

(** Repository code: a computation that reads and writes the session and
    may raise; an exception leaves the session as it was when raised. *)
Definition M (A : Type) : Type := AsyncSession → result A * AsyncSession.

#[global] Instance M_ret : MRet M := λ A a s, (Ok a, s).
#[global] Instance M_bind : MBind M :=
  λ A B f m s, match m s with
               | (Ok a, s') => f a s'
               | (Raise e, s') => (Raise e, s')
               end.

Definition raise {A} (e : exn) : M A := λ s, (Raise e, s).

Definition lift {A} (r : result A) : M A := λ s, (r, s).

(** [order_by=HistoryORM.history_at.desc()] *)
Fixpoint insert_desc (h : HistoryORM.t) (l : list HistoryORM.t)
    : list HistoryORM.t :=
  match l with
  | [] => [h]
  | x :: l' =>
      if decide (HistoryORM.history_at x < HistoryORM.history_at h)
      then h :: l
      else x :: insert_desc h l'
  end.

Definition order_by_history_at_desc (l : list HistoryORM.t)
    : list HistoryORM.t :=
  foldr insert_desc [] l.

Module AsyncSession.
(** The relationship [WalletORM.histories], loaded from the table. *)
Definition histories_of (wallet_id : Z) (d : DB) : list HistoryORM.t :=
  order_by_history_at_desc
    ((λ kr, HistoryORM.load kr.1 kr.2) <$>
       map_to_list (filter (λ kr, row_wallet_id kr.2 = wallet_id)
                           (histories d))).

Definition load_wallet (d : DB) (wallet_id : Z) (name : string)
    : WalletORM.t :=
  WalletORM.mk wallet_id name (histories_of wallet_id d).

(** [session.scalar(select(WalletORM).where(WalletORM.wallet_id == ?))] *)
Definition scalar_wallet (wallet_id : Z) : M (option WalletORM.t) :=
  λ s, (Ok (load_wallet (db s) wallet_id <$> wallets (db s) !! wallet_id), s).

(** [session.scalars(select(WalletORM))] *)
Definition scalars_wallets : M (list WalletORM.t) :=
  λ s, (Ok ((λ kn, load_wallet (db s) kn.1 kn.2) <$>
              map_to_list (wallets (db s))), s).

(** [session.scalar(select(HistoryORM).where(HistoryORM.wallet_id == ?,
    HistoryORM.history_id == ?))] *)
Definition scalar_history (wallet_id history_id : Z)
    : M (option HistoryORM.t) :=
  λ s, (Ok (match histories (db s) !! history_id with
            | Some r =>
                if decide (row_wallet_id r = wallet_id)
                then Some (HistoryORM.load history_id r)
                else None
            | None => None
            end), s).

(** The DELETE statements a flush issues: one for every marked row. *)
Definition apply_deletes (s : AsyncSession) (d : DB) : DB :=
  mkDB (filter (λ kn, kn.1 ∉ deleted_wallets s) (wallets d))
       (filter (λ kr, kr.1 ∉ deleted_histories s) (histories d)).

(** What [session.flush()] leaves: the tables [d] it has written, with the
    marked rows deleted, and nothing marked any more. *)
Definition flushed (s : AsyncSession) (d : DB) : AsyncSession :=
  mkSession (apply_deletes s d) ∅ ∅.

(** [session.add(wallet); session.flush()] with a new wallet that has a
    name and no histories: the INSERT generates the key. *)
Definition add_wallet (name : string) : M WalletORM.t :=
  λ s, let k := next_id (wallets (db s)) in
       (Ok (WalletORM.mk k name []),
        flushed s (mkDB (<[k := name]> (wallets (db s)))
                        (histories (db s)))).

(** [wallet.histories.append(HistoryORM(...)); session.flush()]: the
    INSERT of the new row, with a generated key. *)
Definition insert_history (r : history_row) : M HistoryORM.t :=
  λ s, if row_accepted r
       then let k := next_id (histories (db s)) in
            (Ok (HistoryORM.load k r),
             flushed s (mkDB (wallets (db s))
                             (<[k := r]> (histories (db s)))))
       else (Raise IntegrityError, s).

(** [session.flush()] with a history instance that was assigned to: an
    UPDATE by primary key when a column changed. *)
Definition save_history (h : HistoryORM.t) : M unit :=
  λ s, let k := HistoryORM.history_id h in
       if decide (histories (db s) !! k = Some (HistoryORM.row h))
       then (Ok (), flushed s (db s))
       else if row_accepted (HistoryORM.row h)
       then (Ok (), flushed s (mkDB (wallets (db s))
                                    (<[k := HistoryORM.row h]>
                                       (histories (db s)))))
       else (Raise IntegrityError, s).

(** The row a member of [wallet.histories] has once flushed: the
    relationship sets its foreign key. *)
Definition owned (wallet_id : Z) (h : HistoryORM.t) : history_row :=
  HistoryRow (HistoryORM.name h) (HistoryORM.amount h) (HistoryORM.type h)
             wallet_id (HistoryORM.history_at h).

(** The table once the collection [hs] has been assigned to
    [wallet.histories] and flushed: rows of the wallet that are no
    longer in the collection are deleted ([delete-orphan]), the members
    are written ([save-update]). *)
Definition sync_histories (wallet_id : Z) (hs : list HistoryORM.t)
    (tbl : gmap Z history_row) : gmap Z history_row :=
  foldr (λ h acc, <[HistoryORM.history_id h := owned wallet_id h]> acc)
        (filter (λ kr, row_wallet_id kr.2 = wallet_id →
                       kr.1 ∈ HistoryORM.history_id <$> hs) tbl)
        hs.

(** [session.flush()] with a wallet instance that was assigned to. *)
Definition save_wallet (w : WalletORM.t) : M unit :=
  λ s, let wid := WalletORM.wallet_id w in
       let hs := WalletORM.histories w in
       if forallb (λ h, bool_decide (histories (db s) !!
                                       HistoryORM.history_id h
                                     = Some (owned wid h))
                        || row_accepted (owned wid h)) hs
       then (Ok (), flushed s
                      (mkDB (<[wid := WalletORM.name w]> (wallets (db s)))
                            (sync_histories wid hs (histories (db s)))))
       else (Raise IntegrityError, s).

(** [session.delete(wallet_)]: marks the wallet and, by the cascade of
    the relationship, the histories of its collection. *)
Definition delete_wallet (w : WalletORM.t) : M unit :=
  λ s, (Ok (), mkSession (db s)
                 ({[WalletORM.wallet_id w]} ∪ deleted_wallets s)
                 (list_to_set (HistoryORM.history_id <$>
                                 WalletORM.histories w)
                    ∪ deleted_histories s)).

(** [session.delete(history_)] *)
Definition delete_history (h : HistoryORM.t) : M unit :=
  λ s, (Ok (), mkSession (db s) (deleted_wallets s)
                 ({[HistoryORM.history_id h]} ∪ deleted_histories s)).
End AsyncSession.

(** ** app/repositories/wallet.py: WalletRepository *)

Module WalletRepository.
(** [WalletORM(name=name, history=[])]: the constructor is called with
    the keywords [name] and [history]. *)
Definition add (name : string) : M Wallet.t :=
  _ ← lift (bind_keywords WalletORM.mapped ["name"; "history"]%string);
  wallet ← AsyncSession.add_wallet name;
  lift (WalletORM.to_entity wallet).

Definition get_by_id (wallet_id : Z) : M (option Wallet.t) :=
  wallet ← AsyncSession.scalar_wallet wallet_id;
  match wallet with
  | None => mret None
  | Some wallet => w ← lift (WalletORM.to_entity wallet); mret (Some w)
  end.

Definition get_all : M (list Wallet.t) :=
  wallets ← AsyncSession.scalars_wallets;
  lift (mapM WalletORM.to_entity wallets).

Definition add_history_parameters : list string :=
  ["session"; "wallet_id"; "name"; "amount"; "type_"; "history_at"]%string.

Definition add_history (wallet_id : Z) (name : string) (amount : Z)
    (type_ : HistoryType) (history_at : Z) : M History.t :=
  wallet ← AsyncSession.scalar_wallet wallet_id;
  match wallet with
  | None => raise AppException
  | Some wallet =>
      _ ← lift (bind_keywords HistoryORM.mapped
                  ["name"; "amount"; "type"; "history_at"; "wallet_id"]%string);
      history ← AsyncSession.insert_history
                  (HistoryRow name amount type_
                              (WalletORM.wallet_id wallet) history_at);
      lift (HistoryORM.to_entity history)
  end.

Definition update (wallet : Wallet.t) : M Wallet.t :=
  wallet_ ← AsyncSession.scalar_wallet (Wallet.wallet_id wallet);
  match wallet_ with
  | None => raise AppException
  | Some wallet_ =>
      let wallet_ :=
        WalletORM.update wallet_ wallet (WalletORM.histories wallet_) in
      _ ← AsyncSession.save_wallet wallet_;
      lift (WalletORM.to_entity wallet_)
  end.

Definition delete (wallet : Wallet.t) : M unit :=
  wallet_ ← AsyncSession.scalar_wallet (Wallet.wallet_id wallet);
  match wallet_ with
  | Some wallet_ => AsyncSession.delete_wallet wallet_
  | None => mret ()
  end.

Definition get_history_by_id (wallet_id history_id : Z)
    : M (option History.t) :=
  history_ ← AsyncSession.scalar_history wallet_id history_id;
  match history_ with
  | None => mret None
  | Some history_ =>
      h ← lift (HistoryORM.to_entity history_); mret (Some h)
  end.

Definition update_history (wallet_id : Z) (history : History.t)
    : M History.t :=
  history_ ← AsyncSession.scalar_history wallet_id
               (History.history_id history);
  match history_ with
  | None => raise AppException
  | Some history_ =>
      let history_ := HistoryORM.update history_ history in
      _ ← AsyncSession.save_history history_;
      lift (HistoryORM.to_entity history_)
  end.

Definition delete_history (wallet_id : Z) (history : History.t) : M unit :=
  history_ ← AsyncSession.scalar_history wallet_id
               (History.history_id history);
  match history_ with
  | Some history_ => AsyncSession.delete_history history_
  | None => mret ()
  end.
End WalletRepository.

(** ** Sessions over the stored tables *)

(** A new session: the stored tables, nothing marked. *)
Definition begin (d : DB) : AsyncSession := mkSession d ∅ ∅.

(** A caller of the repository that runs [body] on a new session and
    commits when it returns, which flushes what is pending, and rolls
    back when it raises. *)
Definition transaction {A} (body : M A) (d : DB) : result A * DB :=
  match body (begin d) with
  | (Ok a, s) => (Ok a, AsyncSession.apply_deletes s (db s))
  | (Raise e, _) => (Raise e, d)
  end.

(** ** app/database.py: what a use case is handed as its session

    [get_session] yields [AsyncSessionLocal], the [async_sessionmaker]:
    [self.session] is the factory, [self.session()] a session made by
    it. *)
Inductive context_expression : Type :=
| SessionmakerCalled   (* [self.session()] *)
| SessionmakerItself.  (* [self.session] *)

(** Whether the object supports the asynchronous context manager
    protocol. *)
Definition has_aenter (e : context_expression) : bool :=
  match e with
  | SessionmakerCalled => true
  | SessionmakerItself => false
  end.

(** [async with e as session: body].  With a session the body runs on
    it and the session is closed on exit: nothing is committed, so the
    stored tables are as before.  With an object that is no asynchronous
    context manager the statement raises before the body. *)
Definition async_with {A} (e : context_expression) (body : M A) (d : DB)
    : result A * DB :=
  if has_aenter e then ((body (begin d)).1, d) else (Raise TypeError, d).

(** ** app/api/wallets/histories/use_cases.py

    Each use case is the block it runs ([block]) under its
    [async with]: ListHistories and GetHistory write
    [async with self.session() as session], the others
    [async with self.session as session]. *)

Module ListHistories.
Definition block (wallet_id : Z) : M (list History.t) :=
  wallet ← WalletRepository.get_by_id wallet_id;
  match wallet with
  | None => raise (NotFound "wallet" wallet_id)
  | Some wallet => mret (Wallet.histories wallet)
  end.

Definition execute (wallet_id : Z) : DB → result (list History.t) * DB :=
  async_with SessionmakerCalled (block wallet_id).
End ListHistories.

Module GetHistory.
Definition block (wallet_id history_id : Z) : M History.t :=
  history ← WalletRepository.get_history_by_id wallet_id history_id;
  match history with
  | None => raise (NotFound "history" history_id)
  | Some history => mret history
  end.

Definition execute (wallet_id history_id : Z)
    : DB → result History.t * DB :=
  async_with SessionmakerCalled (block wallet_id history_id).
End GetHistory.

Module CreateHistory.
(** [add_history] is called with the keywords [name], [amount], [type]
    and [history_at], after the session and the wallet id by position. *)
Definition block (wallet_id : Z) (name : string) (amount : Z)
    (type_ : HistoryType) (history_at : Z) : M History.t :=
  wallet ← WalletRepository.get_by_id wallet_id;
  match wallet with
  | None => raise (NotFound "wallet" wallet_id)
  | Some wallet =>
      _ ← lift (bind_keywords WalletRepository.add_history_parameters
                  ["name"; "amount"; "type"; "history_at"]%string);
      WalletRepository.add_history (Wallet.wallet_id wallet)
        name amount type_ history_at
  end.

Definition execute (wallet_id : Z) (name : string) (amount : Z)
    (type_ : HistoryType) (history_at : Z) : DB → result History.t * DB :=
  async_with SessionmakerItself
    (block wallet_id name amount type_ history_at).
End CreateHistory.

Module UpdateHistory.
Definition block (wallet_id history_id : Z) (name : string) (amount : Z)
    (type_ : HistoryType) (history_at : Z) : M History.t :=
  history ← WalletRepository.get_history_by_id wallet_id history_id;
  match history with
  | None => raise (NotFound "history" history_id)
  | Some history =>
      let history :=
        History.mk (History.history_id history) name amount type_
                   history_at (History.wallet_id history) in
      _ ← WalletRepository.update_history wallet_id history;
      mret history
  end.

Definition excute (wallet_id history_id : Z) (name : string) (amount : Z)
    (type_ : HistoryType) (history_at : Z) : DB → result History.t * DB :=
  async_with SessionmakerItself
    (block wallet_id history_id name amount type_ history_at).
End UpdateHistory.

Module DeleteHistory.
Definition block (wallet_id history_id : Z) : M unit :=
  history ← WalletRepository.get_history_by_id wallet_id history_id;
  match history with
  | Some history =>
      WalletRepository.delete_history (History.wallet_id history) history
  | None => mret ()
  end.

Definition excute (wallet_id history_id : Z) : DB → result unit * DB :=
  async_with SessionmakerItself (block wallet_id history_id).
End DeleteHistory.

Module MoveHistory.
Definition block (wallet_id history_id destination_id : Z) : M History.t :=
  history ← WalletRepository.get_history_by_id wallet_id history_id;
  match history with
  | None => raise (NotFound "history" history_id)
  | Some history =>
      wallet ← WalletRepository.get_by_id destination_id;
      match wallet with
      | None => raise (NotFound "wallet" wallet_id)
      | Some wallet =>
          let history :=
            History.mk (History.history_id history)
                       (History.name history) (History.amount history)
                       (History.type history)
                       (History.history_at history)
                       (Wallet.wallet_id wallet) in
          _ ← WalletRepository.update_history wallet_id history;
          mret history
      end
  end.

Definition execute (wallet_id history_id destination_id : Z)
    : DB → result History.t * DB :=
  async_with SessionmakerItself
    (block wallet_id history_id destination_id).
End MoveHistory.

(** ** Observations and invariants used by the statements *)

(** A lookup made on a new session over the stored tables. *)
Definition getHistoryByID (d : DB) (wallet_id history_id : Z)
    : result (option History.t) :=
  (transaction (WalletRepository.get_history_by_id wallet_id history_id) d).1.

Definition getByID (d : DB) (wallet_id : Z) : result (option Wallet.t) :=
  (transaction (WalletRepository.get_by_id wallet_id) d).1.

(** A condition on every stored history, which may depend on the stored
    wallets. *)
Definition rows_satisfy (Q : gmap Z string → history_row → Prop) (d : DB)
    : Prop :=
  map_Forall (λ _ r, Q (wallets d) r) (histories d).

Definition references_wallet (w : gmap Z string) (r : history_row) : Prop :=
  is_Some (w !! row_wallet_id r).

Definition positive_amount (w : gmap Z string) (r : history_row) : Prop :=
  0 < row_amount r.

(** Every stored history references a stored wallet. *)
Definition ref_integrity : DB → Prop := rows_satisfy references_wallet.

(** Every stored history has a positive amount. *)
Definition amounts_positive : DB → Prop := rows_satisfy positive_amount.

#[global] Instance ref_integrity_dec (d : DB) : Decision (ref_integrity d).
Proof. unfold ref_integrity, rows_satisfy, references_wallet. apply _. Defined.

#[global] Instance amounts_positive_dec (d : DB)
  : Decision (amounts_positive d).
Proof. unfold amounts_positive, rows_satisfy, positive_amount. apply _. Defined.

(** A computation keeps a condition on the tables of the session. *)
Definition preserves (P : DB → Prop) {A} (m : M A) : Prop :=
  ∀ s, P (db s) → P (db (m s).2).

(** The exceptions a computation can end with all satisfy [E]. *)
Definition raises_only {A} (E : exn → Prop) (m : M A) : Prop :=
  ∀ s e, (m s).1 = Raise e → E e.

(** The exceptions other than the domain's NotFound. *)
Definition is_NotFound (e : exn) : bool :=
  match e with NotFound _ _ => true | _ => false end.

Definition internal (e : exn) : Prop := is_NotFound e = false.

(** The calls a caller can make on the repository. *)
Inductive call : Type :=
| Add (name : string)
| GetById (wallet_id : Z)
| GetAll
| AddHistory (wallet_id : Z) (name : string) (amount : Z)
             (type_ : HistoryType) (history_at : Z)
| Update (wallet : Wallet.t)
| Delete (wallet : Wallet.t)
| GetHistoryById (wallet_id history_id : Z)
| UpdateHistory_ (wallet_id : Z) (history : History.t)
| DeleteHistory_ (wallet_id : Z) (history : History.t).

(** The exception a computation ends with, if any. *)
Definition raised {A} (r : result A) : option exn :=
  match r with Ok _ => None | Raise e => Some e end.

(** A call made on a session: the exception it raises, if any, and the
    session it leaves. *)
Definition perform (c : call) (s : AsyncSession) : option exn * AsyncSession :=
  match c with
  | Add name => prod_map raised id (WalletRepository.add name s)
  | GetById wallet_id =>
      prod_map raised id (WalletRepository.get_by_id wallet_id s)
  | GetAll => prod_map raised id (WalletRepository.get_all s)
  | AddHistory wallet_id name amount type_ history_at =>
      prod_map raised id
        (WalletRepository.add_history wallet_id name amount type_ history_at s)
  | Update wallet => prod_map raised id (WalletRepository.update wallet s)
  | Delete wallet => prod_map raised id (WalletRepository.delete wallet s)
  | GetHistoryById wallet_id history_id =>
      prod_map raised id
        (WalletRepository.get_history_by_id wallet_id history_id s)
  | UpdateHistory_ wallet_id history =>
      prod_map raised id (WalletRepository.update_history wallet_id history s)
  | DeleteHistory_ wallet_id history =>
      prod_map raised id (WalletRepository.delete_history wallet_id history s)
  end.

(** The session after a sequence of calls, each made whatever the
    previous one returned or raised. *)
Definition perform_all (cs : list call) (s : AsyncSession) : AsyncSession :=
  foldl (λ s c, (perform c s).2) s cs.

(** The tables a commit of the session stores. *)
Definition commit (s : AsyncSession) : DB := AsyncSession.apply_deletes s (db s).

(** ** The balance as the specification words it *)

Definition sum_amounts (ty : HistoryType) (hs : list History.t) : Z :=
  foldr Z.add 0 (History.amount <$> filter (λ h, History.type h = ty) hs).

Definition balance_spec (w : Wallet.t) : Z :=
  sum_amounts INCOME (Wallet.histories w)
  - sum_amounts OUTCOME (Wallet.histories w).

(** The history [h] once it belongs to the wallet [destination_id]. *)
Definition moved (h : History.t) (destination_id : Z) : History.t :=
  History.mk (History.history_id h) (History.name h) (History.amount h)
             (History.type h) (History.history_at h) destination_id.

(** ** Stored tables used as concrete inputs *)

Definition example_db : DB :=
  mkDB (<[1 := "Groceries"%string]> (<[2 := "Bills"%string]> ∅))
       (<[1 := HistoryRow "Salary" 5000 INCOME 1 10]>
          (<[2 := HistoryRow "Rent" 1200 OUTCOME 1 20]> ∅)).

Definition rent : History.t := History.mk 2 "Rent" 1200 OUTCOME 20 1.

Definition salary : History.t := History.mk 1 "Salary" 5000 INCOME 10 1.

(** * Properties *)

(** ** Generated keys are fresh *)



(** ** A session with nothing pending *)

Lemma db_eta (d : DB) : mkDB (wallets d) (histories d) = d.
Proof. by destruct d. Qed.

Lemma apply_deletes_begin (d d' : DB) :
  AsyncSession.apply_deletes (begin d) d' = d'.
Proof.
  unfold AsyncSession.apply_deletes, begin. simpl.
  rewrite !map_filter_id; [apply db_eta | |].
  - intros k r _. simpl. apply not_elem_of_empty.
  - intros k n _. simpl. apply not_elem_of_empty.
Qed.

Lemma flushed_begin (d d' : DB) : AsyncSession.flushed (begin d) d' = begin d'.
Proof. unfold AsyncSession.flushed. by rewrite apply_deletes_begin. Qed.

Lemma commit_begin (d : DB) : commit (begin d) = d.
Proof. apply apply_deletes_begin. Qed.

(** ** Running the monad *)

Lemma bind_run {A B} (m : M A) (f : A → M B) (s : AsyncSession) :
  (m ≫= f) s = match m s with
               | (Ok a, s') => f a s'
               | (Raise e, s') => (Raise e, s')
               end.
Proof. reflexivity. Qed.

Lemma transaction_run {A} (body : M A) (d : DB) (a : A) (d' : DB) :
  body (begin d) = (Ok a, begin d') → transaction body d = (Ok a, d').
Proof. unfold transaction. intros ->. by rewrite apply_deletes_begin. Qed.

Lemma transaction_result {A} (body : M A) (d : DB) :
  (transaction body d).1 = (body (begin d)).1.
Proof. unfold transaction. by destruct (body (begin d)) as [[a|e] s]. Qed.

(** ** Validation: [from_attributes] is off *)

Lemma to_entity_history (h : HistoryORM.t) :
  HistoryORM.to_entity h = Raise ValidationError.
Proof. reflexivity. Qed.

Lemma to_entity_wallet (w : WalletORM.t) :
  WalletORM.to_entity w = Raise ValidationError.
Proof. reflexivity. Qed.

(** ** Lookups read the tables and leave the session alone *)

Lemma get_history_by_id_eq (wallet_id history_id : Z) (s : AsyncSession) :
  WalletRepository.get_history_by_id wallet_id history_id s
  = (match histories (db s) !! history_id with
     | Some r => if decide (row_wallet_id r = wallet_id)
                 then Raise ValidationError else Ok None
     | None => Ok None
     end, s).
Proof.
  unfold WalletRepository.get_history_by_id, AsyncSession.scalar_history.
  rewrite bind_run. simpl.
  destruct (histories (db s) !! history_id) as [r|]; [|done].
  by destruct (decide (row_wallet_id r = wallet_id)).
Qed.

Lemma get_by_id_eq (wallet_id : Z) (s : AsyncSession) :
  WalletRepository.get_by_id wallet_id s
  = (match wallets (db s) !! wallet_id with
     | Some _ => Raise ValidationError
     | None => Ok None
     end, s).
Proof.
  unfold WalletRepository.get_by_id, AsyncSession.scalar_wallet.
  rewrite bind_run. simpl.
  by destruct (wallets (db s) !! wallet_id) as [n|].
Qed.

Lemma getHistoryByID_eq (d : DB) (wallet_id history_id : Z) :
  getHistoryByID d wallet_id history_id
  = match histories d !! history_id with
    | Some r => if decide (row_wallet_id r = wallet_id)
                then Raise ValidationError else Ok None
    | None => Ok None
    end.
Proof.
  unfold getHistoryByID. by rewrite transaction_result, get_history_by_id_eq.
Qed.

Lemma getByID_eq (d : DB) (wallet_id : Z) :
  getByID d wallet_id
  = match wallets d !! wallet_id with
    | Some _ => Raise ValidationError
    | None => Ok None
    end.
Proof. unfold getByID. by rewrite transaction_result, get_by_id_eq. Qed.

Lemma getHistoryByID_None (d : DB) (wallet_id history_id : Z) :
  getHistoryByID d wallet_id history_id = Ok None ↔
  ∀ r, histories d !! history_id = Some r → row_wallet_id r ≠ wallet_id.
Proof.
  rewrite getHistoryByID_eq.
  destruct (histories d !! history_id) as [r|].
  - destruct (decide (row_wallet_id r = wallet_id)) as [Hw|Hw].
    + split; [done|]. intros Hne. by destruct (Hne r).
    + split; [|done]. by intros _ r' [= <-].
  - split; [|done]. by intros _ r' ?.
Qed.

Lemma getByID_None (d : DB) (wallet_id : Z) :
  getByID d wallet_id = Ok None ↔ wallets d !! wallet_id = None.
Proof.
  rewrite getByID_eq. by destruct (wallets d !! wallet_id) as [n|].
Qed.

Lemma getByID_never_Some (d : DB) (wallet_id : Z) (w : Wallet.t) :
  getByID d wallet_id ≠ Ok (Some w).
Proof.
  rewrite getByID_eq. by destruct (wallets d !! wallet_id) as [n|].
Qed.

(** ** The balance of a wallet *)

Lemma sum_amounts_cons (ty : HistoryType) (h : History.t)
    (hs : list History.t) :
  sum_amounts ty (h :: hs)
  = (if decide (History.type h = ty) then History.amount h else 0)
    + sum_amounts ty hs.
Proof.
  unfold sum_amounts. rewrite filter_cons. simpl.
  repeat case_decide; simpl; try done; lia.
Qed.

Lemma fold_left_signed (hs : list History.t) (acc : Z) :
  fold_left (λ acc h, acc + History.signed_amount h) hs acc
  = acc + (sum_amounts INCOME hs - sum_amounts OUTCOME hs).
Proof.
  revert acc. induction hs as [|h hs IH]; intros acc; simpl.
  - unfold sum_amounts. simpl. lia.
  - rewrite IH, !sum_amounts_cons. unfold History.signed_amount.
    destruct (History.type h); simpl; lia.
Qed.

(** C4: the balance of a wallet is the sum of the amounts of its INCOME
    histories minus the sum of the amounts of its OUTCOME histories; an
    income of 100 and an outcome of 30 give 70, no history gives 0, and a
    wallet whose amounts are all positive can have a negative balance. *)
Theorem balance_is_income_minus_outcome :
  (∀ w : Wallet.t, Wallet.balance w = balance_spec w) ∧
  (∀ wid n i1 n1 t1 w1 i2 n2 t2 w2,
     Wallet.balance
       (Wallet.mk wid n [History.mk i1 n1 100 INCOME t1 w1;
                         History.mk i2 n2 30 OUTCOME t2 w2]) = 70) ∧
  (∀ wid n, Wallet.balance (Wallet.mk wid n []) = 0) ∧
  (∃ w : Wallet.t,
     Forall (λ h, 0 < History.amount h) (Wallet.histories w) ∧
     Wallet.balance w < 0).
Proof.
  split; [|split; [|split]].
  - intros w. unfold Wallet.balance, balance_spec.
    rewrite fold_left_signed. lia.
  - done.
  - done.
  - exists (Wallet.mk 2 "Bills" [History.mk 2 "Rent" 1200 OUTCOME 20 2]).
    split; [|done]. by apply Forall_singleton.
Qed.

(** ** Creating a wallet *)

(** C3, as the code has it: [add] constructs the new wallet with the
    keyword [history], which is not an attribute [WalletORM] maps (the
    relationship is [histories]); the constructor raises, so for every
    name and every session [add] ends with TypeError, before anything is
    added to the session. *)
Theorem add_raises_TypeError (n : string) (s : AsyncSession) :
  WalletRepository.add n s = (Raise TypeError, s).
Proof. reflexivity. Qed.
(** ** Updating a wallet *)

Lemma elem_of_insert_desc (x h : HistoryORM.t) (l : list HistoryORM.t) :
  x ∈ insert_desc h l ↔ x = h ∨ x ∈ l.
Proof.
  induction l as [|y l IH]; simpl.
  - rewrite !elem_of_cons. tauto.
  - case_decide; rewrite !elem_of_cons; [tauto|]. rewrite IH. tauto.
Qed.

Lemma elem_of_order_by (x : HistoryORM.t) (l : list HistoryORM.t) :
  x ∈ order_by_history_at_desc l ↔ x ∈ l.
Proof.
  unfold order_by_history_at_desc. induction l as [|y l IH]; simpl; [done|].
  rewrite elem_of_insert_desc, IH, elem_of_cons. tauto.
Qed.

Lemma elem_of_histories_of (d : DB) (wallet_id : Z) (h : HistoryORM.t) :
  h ∈ AsyncSession.histories_of wallet_id d ↔
  ∃ k r, histories d !! k = Some r ∧ row_wallet_id r = wallet_id ∧
         h = HistoryORM.load k r.
Proof.
  unfold AsyncSession.histories_of.
  rewrite elem_of_order_by, list_elem_of_fmap. split.
  - intros ([k r] & -> & Hkr). exists k, r.
    apply elem_of_map_to_list, map_lookup_filter_Some in Hkr as [Hr Hw].
    done.
  - intros (k & r & Hr & Hw & ->). exists (k, r). split; [done|].
    by apply elem_of_map_to_list, map_lookup_filter_Some.
Qed.

Lemma foldr_insert_id {A} (key : A → Z) (val : A → history_row)
    (l : list A) (base : gmap Z history_row) :
  Forall (λ x, base !! key x = Some (val x)) l →
  foldr (λ x acc, <[key x := val x]> acc) base l = base.
Proof.
  induction 1 as [|x l Hx _ IH]; simpl; [done|].
  rewrite IH. by apply insert_id.
Qed.

Lemma owned_loaded (d : DB) (wallet_id : Z) :
  Forall (λ h, histories d !! HistoryORM.history_id h
               = Some (AsyncSession.owned wallet_id h))
         (AsyncSession.histories_of wallet_id d).
Proof.
  apply Forall_forall. intros h (k & r & Hr & Hw & ->)%elem_of_histories_of.
  simpl. rewrite Hr. f_equal. unfold AsyncSession.owned. simpl.
  rewrite <- Hw. by destruct r.
Qed.

Lemma sync_histories_loaded (d : DB) (wallet_id : Z) :
  AsyncSession.sync_histories wallet_id
    (AsyncSession.histories_of wallet_id d) (histories d)
  = histories d.
Proof.
  unfold AsyncSession.sync_histories.
  rewrite map_filter_id.
  - apply foldr_insert_id, owned_loaded.
  - intros k r Hr Hw. simpl in *.
    apply list_elem_of_fmap. exists (HistoryORM.load k r). split; [done|].
    apply elem_of_histories_of. by exists k, r.
Qed.

Lemma update_run (d : DB) (w : Wallet.t) (n : string) :
  wallets d !! Wallet.wallet_id w = Some n →
  WalletRepository.update w (begin d)
  = (Raise ValidationError,
     begin (mkDB (<[Wallet.wallet_id w := Wallet.name w]> (wallets d))
                 (histories d))).
Proof.
  intros Hw. unfold WalletRepository.update, AsyncSession.scalar_wallet.
  rewrite bind_run. simpl. rewrite Hw. simpl.
  rewrite bind_run. unfold AsyncSession.save_wallet. simpl.
  assert (Hall : forallb
            (λ h, bool_decide (histories d !! HistoryORM.history_id h
                               = Some (AsyncSession.owned (Wallet.wallet_id w) h))
                  || row_accepted (AsyncSession.owned (Wallet.wallet_id w) h))
            (AsyncSession.histories_of (Wallet.wallet_id w) d) = true).
  { apply forallb_forall. intros h Hh%list_elem_of_In.
    pose proof (owned_loaded d (Wallet.wallet_id w)) as Hl.
    rewrite Forall_forall in Hl. rewrite bool_decide_eq_true_2; [done|].
    by apply Hl. }
  rewrite Hall. rewrite sync_histories_loaded.
  fold (begin d). by rewrite flushed_begin.
Qed.

(** C6: when the id of the wallet value [w] names a stored wallet,
    [update] leaves the table of histories as it was and changes the
    table of wallets only at that id, where the name becomes the name of
    [w]; whenever [get_by_id] reads the wallet, [update] returns, and a
    later [get_by_id] finds, the wallet with the new name and the
    histories it had before; the histories carried by [w] play no part
    in the result. *)
Theorem update_overwrites_name_only (d : DB) (w : Wallet.t) (n : string) :
  wallets d !! Wallet.wallet_id w = Some n →
  ∃ d',
    (WalletRepository.update w (begin d)).2 = begin d' ∧
    histories d' = histories d ∧
    wallets d' = <[Wallet.wallet_id w := Wallet.name w]> (wallets d) ∧
    (∀ W, getByID d (Wallet.wallet_id w) = Ok (Some W) →
          let W' := Wallet.mk (Wallet.wallet_id w) (Wallet.name w)
                              (Wallet.histories W) in
          (WalletRepository.update w (begin d)).1 = Ok W' ∧
          getByID d' (Wallet.wallet_id w) = Ok (Some W')) ∧
    (∀ hs,
       WalletRepository.update
         (Wallet.mk (Wallet.wallet_id w) (Wallet.name w) hs) (begin d)
       = WalletRepository.update w (begin d)).
Proof.
  intros Hw.
  exists (mkDB (<[Wallet.wallet_id w := Wallet.name w]> (wallets d))
               (histories d)).
  rewrite (update_run d w n Hw). simpl.
  split; [done|split; [done|split; [done|split]]].
  - intros W HW. by apply getByID_never_Some in HW.
  - intros hs.
    by rewrite (update_run d (Wallet.mk (Wallet.wallet_id w) (Wallet.name w) hs)
                  n Hw).
Qed.

Lemma update_overwrites_name_only_witness :
  ∃ d',
    (WalletRepository.update (Wallet.mk 1 "Food" [rent]) (begin example_db)).2
      = begin d' ∧
    histories d' = histories example_db ∧
    wallets d' = <[1 := "Food"%string]> (wallets example_db) ∧
    (∀ W, getByID example_db 1 = Ok (Some W) →
          let W' := Wallet.mk 1 "Food" (Wallet.histories W) in
          (WalletRepository.update (Wallet.mk 1 "Food" [rent])
             (begin example_db)).1 = Ok W' ∧
          getByID d' 1 = Ok (Some W')) ∧
    (∀ hs,
       WalletRepository.update (Wallet.mk 1 "Food" hs) (begin example_db)
       = WalletRepository.update (Wallet.mk 1 "Food" [rent])
           (begin example_db)).
Proof.
  apply (update_overwrites_name_only example_db (Wallet.mk 1 "Food" [rent])
           "Groceries").
  vm_compute. reflexivity.
Defined.

(** ** Which exceptions the repository and the use cases raise *)

Lemma raises_only_ret {A} (E : exn → Prop) (a : A) : raises_only E (mret a).
Proof. by intros s e. Qed.

Lemma raises_only_raise {A} (E : exn → Prop) (e : exn) :
  E e → raises_only E (raise e : M A).
Proof. intros He s e'. simpl. by intros [= <-]. Qed.

Lemma raises_only_bind {A B} (E : exn → Prop) (m : M A) (f : A → M B) :
  raises_only E m → (∀ a, raises_only E (f a)) → raises_only E (m ≫= f).
Proof.
  intros Hm Hf s e. rewrite bind_run.
  specialize (Hm s). destruct (m s) as [[a|e'] s']; simpl in *.
  - apply Hf.
  - intros [= <-]. by apply Hm.
Qed.

Lemma to_entity_history_internal (h : HistoryORM.t) :
  raises_only internal (lift (HistoryORM.to_entity h)).
Proof. intros s e. rewrite to_entity_history. simpl. by intros [= <-]. Qed.

Lemma to_entity_wallet_internal (w : WalletORM.t) :
  raises_only internal (lift (WalletORM.to_entity w)).
Proof. intros s e. rewrite to_entity_wallet. simpl. by intros [= <-]. Qed.

Lemma mapM_cons {A B} (f : A → result B) (x : A) (l : list A) :
  mapM f (x :: l) = (y ← f x; k ← mapM f l; mret (y :: k)).
Proof. reflexivity. Qed.

Lemma to_entity_wallets (ws : list WalletORM.t) :
  mapM WalletORM.to_entity ws
  = match ws with [] => Ok [] | _ :: _ => Raise ValidationError end.
Proof. destruct ws as [|w ws]; [done|]. by rewrite mapM_cons. Qed.

Lemma to_entity_wallets_internal (ws : list WalletORM.t) :
  raises_only internal (lift (mapM WalletORM.to_entity ws)).
Proof.
  intros s e. rewrite to_entity_wallets. simpl.
  destruct ws; [done|]. by intros [= <-].
Qed.

Lemma bind_keywords_internal (declared keywords : list string) :
  raises_only internal (lift (bind_keywords declared keywords)).
Proof.
  intros s e. unfold lift, bind_keywords. simpl.
  destruct (forallb _ _); [done|]. by intros [= <-].
Qed.

Lemma scalar_wallet_internal (wallet_id : Z) :
  raises_only internal (AsyncSession.scalar_wallet wallet_id).
Proof. by intros s e. Qed.

Lemma scalars_wallets_internal :
  raises_only internal AsyncSession.scalars_wallets.
Proof. by intros s e. Qed.

Lemma scalar_history_internal (wallet_id history_id : Z) :
  raises_only internal (AsyncSession.scalar_history wallet_id history_id).
Proof. by intros s e. Qed.

Lemma add_wallet_internal (name : string) :
  raises_only internal (AsyncSession.add_wallet name).
Proof. by intros s e. Qed.

Lemma insert_history_internal (r : history_row) :
  raises_only internal (AsyncSession.insert_history r).
Proof.
  intros s e. unfold AsyncSession.insert_history.
  destruct (row_accepted _); simpl; [done|]. by intros [= <-].
Qed.

Lemma save_history_internal (h : HistoryORM.t) :
  raises_only internal (AsyncSession.save_history h).
Proof.
  intros s e. unfold AsyncSession.save_history. simpl.
  case_decide; simpl; [done|].
  destruct (row_accepted _); simpl; [done|]. by intros [= <-].
Qed.

Lemma save_wallet_internal (w : WalletORM.t) :
  raises_only internal (AsyncSession.save_wallet w).
Proof.
  intros s e. unfold AsyncSession.save_wallet. simpl.
  destruct (forallb _ _); simpl; [done|]. by intros [= <-].
Qed.

Lemma delete_wallet_internal (w : WalletORM.t) :
  raises_only internal (AsyncSession.delete_wallet w).
Proof. by intros s e. Qed.

Lemma delete_history_orm_internal (h : HistoryORM.t) :
  raises_only internal (AsyncSession.delete_history h).
Proof. by intros s e. Qed.

Create HintDb internal.

#[local] Hint Resolve raises_only_ret bind_keywords_internal
  to_entity_history_internal
  to_entity_wallet_internal to_entity_wallets_internal
  scalar_wallet_internal scalars_wallets_internal scalar_history_internal
  add_wallet_internal insert_history_internal save_history_internal
  save_wallet_internal delete_wallet_internal delete_history_orm_internal
  : internal.

Ltac internal :=
  repeat first
    [ apply raises_only_bind; [|intros ?]
    | match goal with
      | |- raises_only _ (match ?x with _ => _ end) => destruct x
      end
    | solve [eauto with internal]
    | solve [apply raises_only_raise; reflexivity] ].

Lemma add_internal (name : string) :
  raises_only internal (WalletRepository.add name).
Proof. unfold WalletRepository.add. internal. Qed.

Lemma get_by_id_internal (wallet_id : Z) :
  raises_only internal (WalletRepository.get_by_id wallet_id).
Proof. unfold WalletRepository.get_by_id. internal. Qed.

Lemma get_all_internal : raises_only internal WalletRepository.get_all.
Proof. unfold WalletRepository.get_all. internal. Qed.

Lemma add_history_internal (wallet_id : Z) (name : string) (amount : Z)
    (type_ : HistoryType) (history_at : Z) :
  raises_only internal
    (WalletRepository.add_history wallet_id name amount type_ history_at).
Proof. unfold WalletRepository.add_history. internal. Qed.

Lemma update_internal (wallet : Wallet.t) :
  raises_only internal (WalletRepository.update wallet).
Proof. unfold WalletRepository.update. internal. Qed.

Lemma delete_internal (wallet : Wallet.t) :
  raises_only internal (WalletRepository.delete wallet).
Proof. unfold WalletRepository.delete. internal. Qed.

Lemma get_history_by_id_internal (wallet_id history_id : Z) :
  raises_only internal
    (WalletRepository.get_history_by_id wallet_id history_id).
Proof. unfold WalletRepository.get_history_by_id. internal. Qed.

Lemma update_history_internal (wallet_id : Z) (history : History.t) :
  raises_only internal (WalletRepository.update_history wallet_id history).
Proof. unfold WalletRepository.update_history. internal. Qed.

Lemma delete_history_internal (wallet_id : Z) (history : History.t) :
  raises_only internal (WalletRepository.delete_history wallet_id history).
Proof. unfold WalletRepository.delete_history. internal. Qed.

Lemma raised_internal {A} (m : M A) (s : AsyncSession) (e : exn) :
  raises_only internal m →
  (prod_map raised id (m s)).1 = Some e → internal e.
Proof.
  intros Hm. specialize (Hm s).
  destruct (m s) as [[a|e'] s']; simpl in *; [done|].
  intros [= <-]. by apply Hm.
Qed.

Lemma perform_internal (c : call) (s : AsyncSession) (e : exn) :
  (perform c s).1 = Some e → internal e.
Proof.
  destruct c; unfold perform; apply raised_internal.
  - apply add_internal.
  - apply get_by_id_internal.
  - apply get_all_internal.
  - apply add_history_internal.
  - apply update_internal.
  - apply delete_internal.
  - apply get_history_by_id_internal.
  - apply update_history_internal.
  - apply delete_history_internal.
Qed.

Lemma add_history_absent (s : AsyncSession) (wid : Z) (name : string)
    (amount : Z) (ty : HistoryType) (at_ : Z) :
  wallets (db s) !! wid = None →
  WalletRepository.add_history wid name amount ty at_ s
  = (Raise AppException, s).
Proof.
  intros Hw. unfold WalletRepository.add_history, AsyncSession.scalar_wallet.
  rewrite bind_run. simpl. by rewrite Hw.
Qed.

Lemma update_absent (s : AsyncSession) (w : Wallet.t) :
  wallets (db s) !! Wallet.wallet_id w = None →
  WalletRepository.update w s = (Raise AppException, s).
Proof.
  intros Hw. unfold WalletRepository.update, AsyncSession.scalar_wallet.
  rewrite bind_run. simpl. by rewrite Hw.
Qed.

Lemma update_history_absent (s : AsyncSession) (wid : Z) (h : History.t) :
  getHistoryByID (db s) wid (History.history_id h) = Ok None →
  WalletRepository.update_history wid h s = (Raise AppException, s).
Proof.
  intros Habs. rewrite getHistoryByID_None in Habs.
  unfold WalletRepository.update_history, AsyncSession.scalar_history.
  rewrite bind_run. simpl.
  destruct (histories (db s) !! History.history_id h) as [r|] eqn:Hr;
    [|done].
  destruct (decide (row_wallet_id r = wid)) as [Hw|]; [|done].
  by destruct (Habs r).
Qed.

Lemma async_with_session {A} (body : M A) (d : DB) :
  async_with SessionmakerCalled body d = ((body (begin d)).1, d).
Proof. reflexivity. Qed.

Lemma ListHistories_run (d : DB) (wid : Z) :
  ListHistories.execute wid d
  = (match wallets d !! wid with
     | Some _ => Raise ValidationError
     | None => Raise (NotFound "wallet" wid)
     end, d).
Proof.
  unfold ListHistories.execute, ListHistories.block.
  rewrite async_with_session, bind_run, get_by_id_eq. simpl.
  by destruct (wallets d !! wid) as [n|].
Qed.

Lemma GetHistory_run (d : DB) (wid hid : Z) :
  GetHistory.execute wid hid d
  = (match histories d !! hid with
     | Some r => if decide (row_wallet_id r = wid)
                 then Raise ValidationError
                 else Raise (NotFound "history" hid)
     | None => Raise (NotFound "history" hid)
     end, d).
Proof.
  unfold GetHistory.execute, GetHistory.block.
  rewrite async_with_session, bind_run, get_history_by_id_eq. simpl.
  destruct (histories d !! hid) as [r|]; [|done].
  by destruct (decide (row_wallet_id r = wid)).
Qed.

(** C9: [add_history] and [update] raise AppException when the wallet
    they select is absent, and [update_history] when the history is
    absent under the wallet, each with the session unchanged;
    AppException carries status 500 and NotFound 404; no repository call
    ever raises NotFound; and whenever a use case raises NotFound, it is
    for the resource and id of a lookup the use case made itself and
    that found nothing (MoveHistory reports the source wallet id when
    the destination wallet is missing). *)
Theorem repository_raises_AppException :
  (∀ s wid name amount ty at_,
     wallets (db s) !! wid = None →
     WalletRepository.add_history wid name amount ty at_ s
     = (Raise AppException, s)) ∧
  (∀ s w,
     wallets (db s) !! Wallet.wallet_id w = None →
     WalletRepository.update w s = (Raise AppException, s)) ∧
  (∀ s wid h,
     getHistoryByID (db s) wid (History.history_id h) = Ok None →
     WalletRepository.update_history wid h s = (Raise AppException, s)) ∧
  (status_code AppException = Some 500 ∧
   (∀ r i, status_code (NotFound r i) = Some 404) ∧
   internal AppException) ∧
  (∀ c s r i, (perform c s).1 ≠ Some (NotFound r i)) ∧
  (∀ d wid r i,
     (ListHistories.execute wid d).1 = Raise (NotFound r i) →
     r = "wallet"%string ∧ i = wid ∧ getByID d wid = Ok None) ∧
  (∀ d wid hid r i,
     (GetHistory.execute wid hid d).1 = Raise (NotFound r i) →
     r = "history"%string ∧ i = hid ∧ getHistoryByID d wid hid = Ok None) ∧
  (∀ d wid n a ty at_ r i,
     (CreateHistory.execute wid n a ty at_ d).1 = Raise (NotFound r i) →
     r = "wallet"%string ∧ i = wid ∧ getByID d wid = Ok None) ∧
  (∀ d wid hid n a ty at_ r i,
     (UpdateHistory.excute wid hid n a ty at_ d).1 = Raise (NotFound r i) →
     r = "history"%string ∧ i = hid ∧ getHistoryByID d wid hid = Ok None) ∧
  (∀ d wid hid r i,
     (DeleteHistory.excute wid hid d).1 ≠ Raise (NotFound r i)) ∧
  (∀ d wid hid dst r i,
     (MoveHistory.execute wid hid dst d).1 = Raise (NotFound r i) →
     (r = "history"%string ∧ i = hid ∧ getHistoryByID d wid hid = Ok None) ∨
     (r = "wallet"%string ∧ i = wid ∧ getByID d dst = Ok None)).
Proof.
  split; [apply add_history_absent|].
  split; [apply update_absent|].
  split; [apply update_history_absent|].
  split; [done|].
  split.
  { intros c s r i Hc. by apply perform_internal in Hc. }
  split.
  { intros d wid r i. rewrite ListHistories_run. simpl.
    destruct (wallets d !! wid) as [n|] eqn:Hw; [done|].
    intros [= <- <-]. split; [done|split; [done|]]. by apply getByID_None. }
  split.
  { intros d wid hid r i. rewrite GetHistory_run. simpl.
    intros Hraise. assert (Hri : r = "history"%string ∧ i = hid).
    { destruct (histories d !! hid) as [r0|]; [|by injection Hraise].
      destruct (decide (row_wallet_id r0 = wid)); [done|by injection Hraise]. }
    destruct Hri as [-> ->]. split; [done|split; [done|]].
    apply getHistoryByID_None. intros r0 Hr0 Hw0.
    rewrite Hr0, decide_True in Hraise by done. done. }
  split; [by intros d wid n a ty at_ r i|].
  split; [by intros d wid hid n a ty at_ r i|].
  split; [by intros d wid hid r i|].
  by intros d wid hid dst r i.
Qed.

Lemma repository_raises_AppException_witness :
  WalletRepository.add_history 9 "Gift" 50 INCOME 30 (begin example_db)
    = (Raise AppException, begin example_db) ∧
  WalletRepository.update (Wallet.mk 9 "Travel" []) (begin example_db)
    = (Raise AppException, begin example_db) ∧
  WalletRepository.update_history 2 rent (begin example_db)
    = (Raise AppException, begin example_db) ∧
  (ListHistories.execute 3 example_db).1 = Raise (NotFound "wallet" 3) ∧
  getByID example_db 3 = Ok None.
Proof.
  destruct repository_raises_AppException
    as (Hadd & Hupd & Hhist & _ & _ & Hlist & _).
  assert (Hraised : (ListHistories.execute 3 example_db).1
                    = Raise (NotFound "wallet" 3))
    by (vm_compute; reflexivity).
  split; [|split; [|split; [|split]]].
  - apply Hadd. vm_compute. reflexivity.
  - apply Hupd. vm_compute. reflexivity.
  - apply Hhist. vm_compute. reflexivity.
  - exact Hraised.
  - by destruct (Hlist example_db 3 "wallet"%string 3 Hraised) as (_ & _ & Hg).
Defined.
(** ** Deleting through the repository *)

Lemma apply_deletes_history (d : DB) (hid : Z) :
  AsyncSession.apply_deletes (mkSession d ∅ ({[hid]} ∪ ∅)) d
  = mkDB (wallets d) (delete hid (histories d)).
Proof.
  unfold AsyncSession.apply_deletes. simpl. f_equal.
  - apply map_filter_id. intros k n _. simpl. apply not_elem_of_empty.
  - apply map_eq. intros k. destruct (decide (k = hid)) as [->|Hne].
    + rewrite lookup_delete_eq. apply map_lookup_filter_None.
      right. intros x _ Hnot. simpl in Hnot. apply Hnot.
      apply elem_of_union_l, elem_of_singleton. done.
    + rewrite lookup_delete_ne by done.
      destruct (histories d !! k) as [x|] eqn:Hk.
      * apply map_lookup_filter_Some. split; [done|]. simpl.
        intros [Hin|Hin]%elem_of_union.
        -- by apply elem_of_singleton in Hin.
        -- by apply not_elem_of_empty in Hin.
      * apply map_lookup_filter_None. by left.
Qed.

Lemma getHistoryByID_ext (d d' : DB) (wid hid : Z) :
  histories d' !! hid = histories d !! hid →
  getHistoryByID d' wid hid = getHistoryByID d wid hid.
Proof. intros Heq. by rewrite !getHistoryByID_eq, Heq. Qed.

(** X6: [delete_history], once committed, never raises; it removes the
    row with the id of the history when that row belongs to the wallet
    given and nothing otherwise; of the history it is handed only the id
    is used; and every lookup of another history, or under another
    wallet, answers as before. *)
Theorem delete_history_scoped (d : DB) (wid : Z) (h : History.t) :
  transaction (WalletRepository.delete_history wid h) d
  = (Ok (),
     match histories d !! History.history_id h with
     | Some r =>
         if decide (row_wallet_id r = wid)
         then mkDB (wallets d) (delete (History.history_id h) (histories d))
         else d
     | None => d
     end) ∧
  (∀ h', History.history_id h' = History.history_id h →
         WalletRepository.delete_history wid h'
         = WalletRepository.delete_history wid h) ∧
  (∀ wid' hid',
     (wid', hid') ≠ (wid, History.history_id h) →
     getHistoryByID (transaction (WalletRepository.delete_history wid h) d).2
                    wid' hid'
     = getHistoryByID d wid' hid').
Proof.
  assert (Hrun : transaction (WalletRepository.delete_history wid h) d
    = (Ok (),
       match histories d !! History.history_id h with
       | Some r =>
           if decide (row_wallet_id r = wid)
           then mkDB (wallets d) (delete (History.history_id h) (histories d))
           else d
       | None => d
       end)).
  { unfold transaction, WalletRepository.delete_history,
      AsyncSession.scalar_history.
    rewrite bind_run. simpl.
    destruct (histories d !! History.history_id h) as [r|] eqn:Hr.
    - destruct (decide (row_wallet_id r = wid)); simpl.
      + f_equal. apply apply_deletes_history.
      + f_equal. apply apply_deletes_begin.
    - simpl. f_equal. apply apply_deletes_begin. }
  split; [exact Hrun|split].
  - intros h' Heq. unfold WalletRepository.delete_history. by rewrite Heq.
  - intros wid' hid' Hne. rewrite Hrun. simpl.
    destruct (histories d !! History.history_id h) as [r|] eqn:Hr; [|done].
    destruct (decide (row_wallet_id r = wid)) as [Hw|]; [|done].
    destruct (decide (hid' = History.history_id h)) as [->|Hk].
    + assert (Hwid : wid' ≠ wid) by congruence.
      transitivity (Ok (None : option History.t)); [|symmetry].
      * apply getHistoryByID_None. simpl. intros r0.
        by rewrite lookup_delete_eq.
      * apply getHistoryByID_None. intros r0. rewrite Hr.
        intros [= <-]. congruence.
    + apply getHistoryByID_ext. simpl. by rewrite lookup_delete_ne.
Qed.

Lemma delete_run (d : DB) (w : Wallet.t) (n : string) :
  wallets d !! Wallet.wallet_id w = Some n →
  transaction (WalletRepository.delete w) d
  = (Ok (),
     mkDB (delete (Wallet.wallet_id w) (wallets d))
          (filter (λ kr, row_wallet_id kr.2 ≠ Wallet.wallet_id w)
                  (histories d))).
Proof.
  intros Hw.
  unfold transaction, WalletRepository.delete, AsyncSession.scalar_wallet.
  rewrite bind_run. simpl. rewrite Hw. simpl. f_equal.
  unfold AsyncSession.apply_deletes. simpl. f_equal.
  - apply map_eq. intros k.
    destruct (decide (k = Wallet.wallet_id w)) as [->|Hne].
    + rewrite lookup_delete_eq. apply map_lookup_filter_None.
      right. intros x _ Hnot. simpl in Hnot. apply Hnot.
      apply elem_of_union_l, elem_of_singleton. done.
    + rewrite lookup_delete_ne by done.
      destruct (wallets d !! k) as [x|] eqn:Hk.
      * apply map_lookup_filter_Some. split; [done|]. simpl.
        intros [Hin|Hin]%elem_of_union.
        -- by apply elem_of_singleton in Hin.
        -- by apply not_elem_of_empty in Hin.
      * apply map_lookup_filter_None. by left.
  - apply map_filter_ext. intros k r Hr. simpl. split.
    + intros Hnot Heq. apply Hnot.
      apply elem_of_union_l, elem_of_list_to_set, list_elem_of_fmap.
      exists (HistoryORM.load k r). split; [done|].
      apply elem_of_histories_of. by exists k, r.
    + intros Hne [Hin|Hin]%elem_of_union;
        [|by apply not_elem_of_empty in Hin].
      apply elem_of_list_to_set, list_elem_of_fmap in Hin
        as (h & Hid & (k' & r' & Hr' & Hw' & ->)%elem_of_histories_of).
      simpl in Hid. subst k'. congruence.
Qed.

(** X7: [delete], once committed, never raises; it removes the wallet
    and, when the wallet was stored, exactly the histories that
    reference it, and changes nothing when it was not; every other
    wallet reads as before; and of the wallet it is handed only the id
    is used. *)
Theorem delete_removes_wallet_and_its_histories (d : DB) (w : Wallet.t) :
  let d' := (transaction (WalletRepository.delete w) d).2 in
  (transaction (WalletRepository.delete w) d).1 = Ok () ∧
  wallets d' = delete (Wallet.wallet_id w) (wallets d) ∧
  (is_Some (wallets d !! Wallet.wallet_id w) →
   histories d'
   = filter (λ kr, row_wallet_id kr.2 ≠ Wallet.wallet_id w) (histories d)) ∧
  (wallets d !! Wallet.wallet_id w = None → d' = d) ∧
  (∀ wid, wid ≠ Wallet.wallet_id w → getByID d' wid = getByID d wid) ∧
  (∀ w', Wallet.wallet_id w' = Wallet.wallet_id w →
         WalletRepository.delete w' = WalletRepository.delete w).
Proof.
  simpl.
  destruct (wallets d !! Wallet.wallet_id w) as [n|] eqn:Hw.
  - rewrite (delete_run d w n Hw). simpl.
    split; [done|split; [done|split; [done|split; [done|split]]]].
    + intros wid Hne. rewrite !getByID_eq. simpl.
      by rewrite lookup_delete_ne.
    + intros w' Heq. unfold WalletRepository.delete. by rewrite Heq.
  - assert (Hrun : transaction (WalletRepository.delete w) d = (Ok (), d)).
    { apply transaction_run.
      unfold WalletRepository.delete, AsyncSession.scalar_wallet.
      rewrite bind_run. simpl. by rewrite Hw. }
    rewrite Hrun. simpl.
    split; [done|split; [by rewrite delete_id|split]].
    + by intros [? ?].
    + split; [done|split; [done|]].
      intros w' Heq. unfold WalletRepository.delete. by rewrite Heq.
Qed.
(** ** The use cases that write

    CreateHistory, UpdateHistory, DeleteHistory and MoveHistory enter
    [async with self.session], the factory itself. *)

Lemma MoveHistory_block_eq (d : DB) (src hid dst : Z) :
  MoveHistory.block src hid dst (begin d)
  = (match histories d !! hid with
     | Some r => if decide (row_wallet_id r = src)
                 then Raise ValidationError
                 else Raise (NotFound "history" hid)
     | None => Raise (NotFound "history" hid)
     end, begin d).
Proof.
  unfold MoveHistory.block. rewrite bind_run, get_history_by_id_eq. simpl.
  destruct (histories d !! hid) as [r|]; [|done].
  by destruct (decide (row_wallet_id r = src)).
Qed.

(** C1, as the code has it: MoveHistory moves nothing.  On every input
    the use case raises TypeError at its [async with], before its block,
    and the stored tables are unchanged; and the block itself, run on a
    session, raises ValidationError at its first lookup whenever the
    history is stored under the source wallet, the validation of
    [to_entity] failing.  So it is for the history 2 of wallet 1 and
    the stored destination wallet 2, where the lookup of the history
    raises too. *)
Theorem MoveHistory_raises_TypeError :
  (∀ d src hid dst,
     MoveHistory.execute src hid dst d = (Raise TypeError, d)) ∧
  (∀ d src hid dst r,
     histories d !! hid = Some r → row_wallet_id r = src →
     MoveHistory.block src hid dst (begin d)
     = (Raise ValidationError, begin d)) ∧
  MoveHistory.execute 1 2 2 example_db = (Raise TypeError, example_db) ∧
  MoveHistory.block 1 2 2 (begin example_db)
  = (Raise ValidationError, begin example_db) ∧
  is_Some (wallets example_db !! 2) ∧
  getHistoryByID example_db 1 2 = Raise ValidationError.
Proof.
  split; [done|split].
  - intros d src hid dst r Hr Hw.
    rewrite MoveHistory_block_eq, Hr. by rewrite decide_True.
  - split; [done|]. split; [by vm_compute|]. split; [by eexists|].
    by vm_compute.
Qed.

(** C2, as the code has it: MoveHistory never raises NotFound.  With a
    destination that is not stored, as with any other, the use case
    raises TypeError at its [async with]; its block, run on a session,
    ends at the lookup of the history, with ValidationError or with
    NotFound for the history, and never reports the wallet.  The stored
    tables are unchanged in every case: the history 2 stays as it is
    under wallet 1 when it is moved to the missing wallet 3. *)
Theorem MoveHistory_never_raises_NotFound :
  (∀ d src hid dst r i,
     (MoveHistory.execute src hid dst d).1 ≠ Raise (NotFound r i)) ∧
  (∀ d src hid dst i,
     (MoveHistory.block src hid dst (begin d)).1
     ≠ Raise (NotFound "wallet" i)) ∧
  (∀ d src hid dst, (MoveHistory.execute src hid dst d).2 = d) ∧
  wallets example_db !! 3 = None ∧
  histories example_db !! 2 = Some (HistoryRow "Rent" 1200 OUTCOME 1 20) ∧
  MoveHistory.execute 1 2 3 example_db = (Raise TypeError, example_db) ∧
  MoveHistory.block 1 2 3 (begin example_db)
  = (Raise ValidationError, begin example_db).
Proof.
  split; [done|split; [|split; [done|]]].
  - intros d src hid dst i. rewrite MoveHistory_block_eq. simpl.
    destruct (histories d !! hid) as [r|]; [|done].
    by destruct (decide (row_wallet_id r = src)).
  - split; [by vm_compute|]. split; [by vm_compute|].
    split; [done|by vm_compute].
Qed.

Lemma DeleteHistory_block_eq (d : DB) (wid hid : Z) :
  DeleteHistory.block wid hid (begin d)
  = (match histories d !! hid with
     | Some r => if decide (row_wallet_id r = wid)
                 then Raise ValidationError else Ok ()
     | None => Ok ()
     end, begin d).
Proof.
  unfold DeleteHistory.block. rewrite bind_run, get_history_by_id_eq. simpl.
  destruct (histories d !! hid) as [r|]; [|done].
  by destruct (decide (row_wallet_id r = wid)).
Qed.

(** C7, as the code has it: DeleteHistory never succeeds.  On every
    input, a history that is absent included, the use case raises
    TypeError at its [async with], with the stored tables unchanged.
    Its block, run on a session, returns without a change when the
    history is absent under the wallet, and raises ValidationError at
    the lookup when it is stored there, before anything is deleted. *)
Theorem DeleteHistory_raises_TypeError :
  (∀ d wid hid, DeleteHistory.excute wid hid d = (Raise TypeError, d)) ∧
  (∀ d wid hid,
     getHistoryByID d wid hid = Ok None →
     DeleteHistory.block wid hid (begin d) = (Ok (), begin d)) ∧
  (∀ d wid hid r,
     histories d !! hid = Some r → row_wallet_id r = wid →
     DeleteHistory.block wid hid (begin d)
     = (Raise ValidationError, begin d)) ∧
  getHistoryByID example_db 2 2 = Ok None ∧
  DeleteHistory.excute 2 2 example_db = (Raise TypeError, example_db) ∧
  DeleteHistory.excute 1 2 example_db = (Raise TypeError, example_db).
Proof.
  split; [done|split; [|split]].
  - intros d wid hid Habs. rewrite getHistoryByID_None in Habs.
    rewrite DeleteHistory_block_eq.
    destruct (histories d !! hid) as [r|] eqn:Hr; [|done].
    destruct (decide (row_wallet_id r = wid)) as [Hw|]; [|done].
    by destruct (Habs r).
  - intros d wid hid r Hr Hw.
    rewrite DeleteHistory_block_eq, Hr. by rewrite decide_True.
  - split; [by vm_compute|]. by split.
Qed.

(** ** update_history writes every column of the entity, the owner included *)

Lemma update_history_run (d : DB) (src : Z) (h : History.t) (r : history_row) :
  histories d !! History.history_id h = Some r →
  row_wallet_id r = src →
  0 < History.amount h →
  WalletRepository.update_history src h (begin d)
  = (Raise ValidationError,
     begin (mkDB (wallets d)
                 (<[History.history_id h :=
                      HistoryRow (History.name h) (History.amount h)
                        (History.type h) (History.wallet_id h)
                        (History.history_at h)]> (histories d)))).
Proof.
  intros Hr Hw Hpos.
  unfold WalletRepository.update_history, AsyncSession.scalar_history.
  rewrite bind_run. simpl. rewrite Hr.
  destruct (decide (row_wallet_id r = src)); [|done].
  rewrite bind_run. unfold AsyncSession.save_history, HistoryORM.row,
    HistoryORM.update, row_accepted. simpl.
  rewrite !flushed_begin.
  case_decide as Heq.
  - rewrite insert_id by done. by rewrite db_eta.
  - by rewrite bool_decide_eq_true_2 by done.
Qed.



(** ** Referential integrity *)

(** C5, as the code has it: the foreign key of [wallet_id] is not
    enforced, and [update_history] leaves a history that references no
    stored wallet.  With an entity whose [wallet_id] names no wallet and
    whose amount is positive, it writes the row, and raises
    ValidationError afterwards; the row is in the tables of the session
    and in the tables a commit of the session stores.  So it is over
    tables that satisfy referential integrity, when the history 2 is
    given the wallet 99. *)
Theorem update_history_leaves_orphan :
  (∀ d src h r,
     histories d !! History.history_id h = Some r →
     row_wallet_id r = src → 0 < History.amount h →
     wallets d !! History.wallet_id h = None →
     let s := (WalletRepository.update_history src h (begin d)).2 in
     (row_wallet_id <$> histories (db s) !! History.history_id h
      = Some (History.wallet_id h)) ∧
     ¬ ref_integrity (db s) ∧ ¬ ref_integrity (commit s)) ∧
  ref_integrity example_db ∧
  wallets example_db !! 99 = None ∧
  WalletRepository.update_history 1 (moved rent 99) (begin example_db)
  = (Raise ValidationError,
     begin (mkDB (wallets example_db)
                 (<[2 := HistoryRow "Rent" 1200 OUTCOME 99 20]>
                    (histories example_db)))) ∧
  ¬ ref_integrity
      (commit (perform_all [UpdateHistory_ 1 (moved rent 99)]
                           (begin example_db))).
Proof.
  assert (Hgen : ∀ d src h r,
     histories d !! History.history_id h = Some r →
     row_wallet_id r = src → 0 < History.amount h →
     wallets d !! History.wallet_id h = None →
     let s := (WalletRepository.update_history src h (begin d)).2 in
     (row_wallet_id <$> histories (db s) !! History.history_id h
      = Some (History.wallet_id h)) ∧
     ¬ ref_integrity (db s) ∧ ¬ ref_integrity (commit s)).
  { intros d src h r Hr Hw Hpos Hnone.
    rewrite (update_history_run d src h r Hr Hw Hpos). simpl.
    rewrite commit_begin.
    assert (Hbroken : ¬ ref_integrity
              (mkDB (wallets d)
                 (<[History.history_id h :=
                      HistoryRow (History.name h) (History.amount h)
                        (History.type h) (History.wallet_id h)
                        (History.history_at h)]> (histories d)))).
    { intros Href.
      destruct (Href (History.history_id h) _ (lookup_insert_eq _ _ _))
        as [n Hn].
      simpl in Hn. congruence. }
    split; [by rewrite lookup_insert_eq|by split]. }
  split; [exact Hgen|].
  split; [apply (bool_decide_unpack _); by vm_compute|].
  split; [by vm_compute|].
  assert (Hrun : WalletRepository.update_history 1 (moved rent 99)
                   (begin example_db)
    = (Raise ValidationError,
       begin (mkDB (wallets example_db)
                   (<[2 := HistoryRow "Rent" 1200 OUTCOME 99 20]>
                      (histories example_db))))).
  { apply (update_history_run example_db 1 (moved rent 99)
             (HistoryRow "Rent" 1200 OUTCOME 1 20));
      [by vm_compute|done|done]. }
  split; [exact Hrun|].
  unfold perform_all, perform. simpl. rewrite Hrun. simpl.
  rewrite commit_begin. intros Href.
  destruct (Href 2 _ (lookup_insert_eq _ _ _)) as [n Hn].
  simpl in Hn. vm_compute in Hn. discriminate.
Qed.

(** ** Adding a history *)




(** ** What the lookups and the use cases that read return *)

Lemma get_all_eq (s : AsyncSession) :
  WalletRepository.get_all s
  = (if decide (wallets (db s) = ∅) then Ok [] else Raise ValidationError, s).
Proof.
  unfold WalletRepository.get_all, AsyncSession.scalars_wallets.
  rewrite bind_run. unfold lift. rewrite to_entity_wallets.
  destruct (map_to_list (wallets (db s))) as [|kn l] eqn:Hl; simpl.
  - apply map_to_list_empty_iff in Hl. by rewrite decide_True.
  - rewrite decide_False; [done|]. intros Hempty.
    rewrite Hempty, map_to_list_empty in Hl. discriminate.
Qed.

(** X5: the lookups of the repository return no stored entity, the
    validation of [to_entity] failing for every instance: [get_by_id]
    returns None when no wallet is stored under the id and raises
    ValidationError when one is; [get_history_by_id] returns None when
    no history with the id is stored under the wallet and raises
    ValidationError when one is; [get_all] returns the empty list when
    no wallet is stored and raises ValidationError otherwise.  Each
    leaves the session unchanged. *)
Theorem lookups_raise_on_stored_rows (s : AsyncSession) :
  (∀ wid,
     WalletRepository.get_by_id wid s
     = (match wallets (db s) !! wid with
        | Some _ => Raise ValidationError
        | None => Ok None
        end, s)) ∧
  (∀ wid hid,
     WalletRepository.get_history_by_id wid hid s
     = (match histories (db s) !! hid with
        | Some r => if decide (row_wallet_id r = wid)
                    then Raise ValidationError else Ok None
        | None => Ok None
        end, s)) ∧
  WalletRepository.get_all s
  = (if decide (wallets (db s) = ∅) then Ok [] else Raise ValidationError, s).
Proof.
  split; [|split].
  - intros wid. apply get_by_id_eq.
  - intros wid hid. apply get_history_by_id_eq.
  - apply get_all_eq.
Qed.

(** X3: ListHistories and GetHistory never return and change nothing:
    ListHistories raises NotFound for the wallet when none is stored
    under the id and ValidationError when one is; GetHistory raises
    NotFound for the history when none with the id is stored under the
    wallet and ValidationError when one is. *)
Theorem ListHistories_and_GetHistory_raise (d : DB) :
  (∀ wid,
     ListHistories.execute wid d
     = (match wallets d !! wid with
        | Some _ => Raise ValidationError
        | None => Raise (NotFound "wallet" wid)
        end, d)) ∧
  (∀ wid hid,
     GetHistory.execute wid hid d
     = (match histories d !! hid with
        | Some r => if decide (row_wallet_id r = wid)
                    then Raise ValidationError
                    else Raise (NotFound "history" hid)
        | None => Raise (NotFound "history" hid)
        end, d)) ∧
  (∀ wid hs d', ListHistories.execute wid d ≠ (Ok hs, d')) ∧
  (∀ wid hid h d', GetHistory.execute wid hid d ≠ (Ok h, d')).
Proof.
  split; [|split; [|split]].
  - intros wid. apply ListHistories_run.
  - intros wid hid. apply GetHistory_run.
  - intros wid hs d'. rewrite ListHistories_run.
    by destruct (wallets d !! wid).
  - intros wid hid h d'. rewrite GetHistory_run.
    destruct (histories d !! hid) as [r|]; [|done].
    by destruct (decide (row_wallet_id r = wid)).
Qed.

(** X14: CreateHistory never returns a history and never changes the
    stored tables: on every input it raises TypeError at its
    [async with], before its block.  The block, run on a session, raises
    NotFound for the wallet when none is stored under the id and
    ValidationError, at the lookup of the wallet, when one is; it
    inserts nothing. *)
Theorem CreateHistory_never_stores (d : DB) (wid : Z) (name : string)
    (amount : Z) (ty : HistoryType) (at_ : Z) :
  CreateHistory.execute wid name amount ty at_ d = (Raise TypeError, d) ∧
  CreateHistory.block wid name amount ty at_ (begin d)
  = (match wallets d !! wid with
     | Some _ => Raise ValidationError
     | None => Raise (NotFound "wallet" wid)
     end, begin d).
Proof.
  split; [done|].
  unfold CreateHistory.block. rewrite bind_run, get_by_id_eq. simpl.
  by destruct (wallets d !! wid).
Qed.

(** ** Every stored amount stays positive *)

Lemma apply_deletes_positive (s : AsyncSession) (d : DB) :
  amounts_positive d → amounts_positive (AsyncSession.apply_deletes s d).
Proof.
  intros Hd k r. unfold AsyncSession.apply_deletes. simpl.
  intros [Hr _]%map_lookup_filter_Some. by apply (Hd k).
Qed.

Lemma insert_history_positive (w : gmap Z string) (d : DB) (k : Z)
    (r : history_row) :
  amounts_positive d → row_accepted r = true →
  amounts_positive (mkDB w (<[k := r]> (histories d))).
Proof.
  intros Hd Hacc i r'. simpl.
  destruct (decide (k = i)) as [->|Hne].
  - rewrite lookup_insert_eq. intros [= <-].
    by apply bool_decide_eq_true in Hacc.
  - rewrite lookup_insert_ne by done. apply Hd.
Qed.

Lemma preserves_ret {A} (a : A) : preserves amounts_positive (mret a).
Proof. by intros s. Qed.

Lemma preserves_raise {A} (e : exn) :
  preserves amounts_positive (raise e : M A).
Proof. by intros s. Qed.

Lemma preserves_lift {A} (r : result A) : preserves amounts_positive (lift r).
Proof. by intros s. Qed.

Lemma preserves_bind {A B} (m : M A) (f : A → M B) :
  preserves amounts_positive m →
  (∀ a, preserves amounts_positive (f a)) →
  preserves amounts_positive (m ≫= f).
Proof.
  intros Hm Hf s Hs. rewrite bind_run.
  specialize (Hm s Hs). destruct (m s) as [[a|e] s']; simpl in *.
  - by apply Hf.
  - done.
Qed.

Lemma preserves_scalar_wallet (wallet_id : Z) :
  preserves amounts_positive (AsyncSession.scalar_wallet wallet_id).
Proof. by intros s. Qed.

Lemma preserves_scalars_wallets :
  preserves amounts_positive AsyncSession.scalars_wallets.
Proof. by intros s. Qed.

Lemma preserves_scalar_history (wallet_id history_id : Z) :
  preserves amounts_positive (AsyncSession.scalar_history wallet_id history_id).
Proof. by intros s. Qed.

Lemma preserves_add_wallet (name : string) :
  preserves amounts_positive (AsyncSession.add_wallet name).
Proof.
  intros s Hs. simpl. apply apply_deletes_positive.
  intros k r Hr. by apply (Hs k).
Qed.

Lemma preserves_insert_history (r : history_row) :
  preserves amounts_positive (AsyncSession.insert_history r).
Proof.
  intros s Hs. unfold AsyncSession.insert_history.
  destruct (row_accepted r) eqn:Hacc; simpl; [|done].
  apply apply_deletes_positive. by apply insert_history_positive.
Qed.

Lemma preserves_save_history (h : HistoryORM.t) :
  preserves amounts_positive (AsyncSession.save_history h).
Proof.
  intros s Hs. unfold AsyncSession.save_history. simpl.
  case_decide; simpl.
  - by apply apply_deletes_positive.
  - destruct (row_accepted (HistoryORM.row h)) eqn:Hacc; simpl; [|done].
    apply apply_deletes_positive. by apply insert_history_positive.
Qed.

Lemma foldr_insert_lookup {A} (key : A → Z) (val : A → history_row)
    (l : list A) (base : gmap Z history_row) (k : Z) (r : history_row) :
  foldr (λ x acc, <[key x := val x]> acc) base l !! k = Some r →
  (∃ x, x ∈ l ∧ r = val x) ∨ base !! k = Some r.
Proof.
  induction l as [|x l IH]; simpl; [by right|].
  destruct (decide (key x = k)) as [<-|Hne].
  - rewrite lookup_insert_eq. intros [= <-]. left. exists x.
    split; [apply elem_of_cons; by left|done].
  - rewrite lookup_insert_ne by done. intros Hk.
    destruct (IH Hk) as [(y & Hy & ->)|Hbase]; [|by right].
    left. exists y. split; [apply elem_of_cons; by right|done].
Qed.

Lemma preserves_save_wallet (w : WalletORM.t) :
  preserves amounts_positive (AsyncSession.save_wallet w).
Proof.
  intros s Hs. unfold AsyncSession.save_wallet. simpl.
  destruct (forallb _ _) eqn:Hall; simpl; [|done].
  apply apply_deletes_positive. intros k r. simpl.
  unfold AsyncSession.sync_histories.
  intros [(h & Hh & ->)|Hbase]%foldr_insert_lookup.
  - rewrite forallb_forall in Hall.
    apply list_elem_of_In, Hall in Hh.
    apply orb_true_iff in Hh as [Hsame|Hacc].
    + apply bool_decide_eq_true in Hsame. by apply (Hs _ _ Hsame).
    + by apply bool_decide_eq_true in Hacc.
  - apply map_lookup_filter_Some in Hbase as [Hr _]. by apply (Hs k).
Qed.

Lemma preserves_delete_wallet (w : WalletORM.t) :
  preserves amounts_positive (AsyncSession.delete_wallet w).
Proof. by intros s. Qed.

Lemma preserves_delete_history (h : HistoryORM.t) :
  preserves amounts_positive (AsyncSession.delete_history h).
Proof. by intros s. Qed.

Create HintDb preserve.

#[local] Hint Resolve preserves_ret preserves_raise preserves_lift
  preserves_scalar_wallet preserves_scalars_wallets preserves_scalar_history
  preserves_add_wallet preserves_insert_history preserves_save_history
  preserves_save_wallet preserves_delete_wallet preserves_delete_history
  : preserve.

Ltac preserve :=
  repeat first
    [ apply preserves_bind; [|intros ?]
    | match goal with
      | |- preserves _ (match ?x with _ => _ end) => destruct x
      end
    | solve [eauto with preserve] ].

Lemma perform_positive (c : call) (s : AsyncSession) :
  amounts_positive (db s) → amounts_positive (db (perform c s).2).
Proof.
  intros Hs.
  assert (Hrun : ∀ (A : Type) (m : M A),
            preserves amounts_positive m →
            amounts_positive (db (prod_map raised id (m s)).2)).
  { intros A m Hm. specialize (Hm s Hs). by destruct (m s). }
  destruct c; unfold perform; apply Hrun.
  - unfold WalletRepository.add. preserve.
  - unfold WalletRepository.get_by_id. preserve.
  - unfold WalletRepository.get_all. preserve.
  - unfold WalletRepository.add_history. preserve.
  - unfold WalletRepository.update. preserve.
  - unfold WalletRepository.delete. preserve.
  - unfold WalletRepository.get_history_by_id. preserve.
  - unfold WalletRepository.update_history. preserve.
  - unfold WalletRepository.delete_history. preserve.
Qed.

(** X18: over tables in which every stored amount is positive, every
    stored amount is still positive after any sequence of repository
    calls, whatever each returned or raised: in the tables of the
    session and in the tables a commit of it stores.  The CHECK
    constraint refuses every row that would break it. *)
Theorem amounts_stay_positive (d : DB) :
  amounts_positive d →
  ∀ cs : list call,
    amounts_positive (db (perform_all cs (begin d))) ∧
    amounts_positive (commit (perform_all cs (begin d))).
Proof.
  intros Hd cs.
  assert (Hs : ∀ s, amounts_positive (db s) →
                    amounts_positive (db (perform_all cs s))).
  { induction cs as [|c cs IH]; intros s Hs; simpl; [done|].
    apply IH. by apply perform_positive. }
  split; [by apply Hs|].
  unfold commit. apply apply_deletes_positive. by apply Hs.
Qed.

Lemma amounts_stay_positive_witness :
  amounts_positive example_db ∧
  amounts_positive
    (db (perform_all
           [AddHistory 1 "Gift" 50 INCOME 30; AddHistory 1 "Void" 0 INCOME 31;
            UpdateHistory_ 1 (History.mk 2 "Rent" (-5) OUTCOME 20 1);
            Delete (Wallet.mk 2 "Bills" [])]
           (begin example_db))) ∧
  amounts_positive
    (commit (perform_all
               [AddHistory 1 "Gift" 50 INCOME 30;
                AddHistory 1 "Void" 0 INCOME 31;
                UpdateHistory_ 1 (History.mk 2 "Rent" (-5) OUTCOME 20 1);
                Delete (Wallet.mk 2 "Bills" [])]
               (begin example_db))).
Proof.
  assert (Hpos : amounts_positive example_db)
    by (apply (bool_decide_unpack _); vm_compute; exact I).
  split; [exact Hpos|].
  apply (amounts_stay_positive example_db Hpos).
Defined.

(** ** The balance does not depend on the order of the histories *)

Lemma balance_cons (wid : Z) (n : string) (h : History.t)
    (hs : list History.t) :
  Wallet.balance (Wallet.mk wid n (h :: hs))
  = History.signed_amount h + Wallet.balance (Wallet.mk wid n hs).
Proof.
  unfold Wallet.balance. simpl. rewrite !fold_left_signed. lia.
Qed.

(** X19: two wallets whose histories are the same up to their order
    have the same balance, whatever their ids and names. *)
Theorem balance_order_independent (W W' : Wallet.t) :
  Wallet.histories W ≡ₚ Wallet.histories W' →
  Wallet.balance W = Wallet.balance W'.
Proof.
  destruct W as [wid n hs], W' as [wid' n' hs']. simpl.
  change (Wallet.balance (Wallet.mk wid' n' hs'))
    with (Wallet.balance (Wallet.mk wid n hs')).
  induction 1 as [|h l l' _ IH|h1 h2 l|l1 l2 l3 _ IH1 _ IH2].
  - done.
  - by rewrite !balance_cons, IH.
  - rewrite !balance_cons. lia.
  - by rewrite IH1.
Qed.

Lemma balance_order_independent_witness :
  [rent; salary] ≡ₚ [salary; rent] ∧
  Wallet.balance (Wallet.mk 1 "Groceries" [rent; salary])
  = Wallet.balance (Wallet.mk 7 "Copy" [salary; rent]).
Proof.
  assert (Hperm : [rent; salary] ≡ₚ [salary; rent])
    by apply Permutation_swap.
  split; [exact Hperm|].
  apply (balance_order_independent (Wallet.mk 1 "Groceries" [rent; salary])
           (Wallet.mk 7 "Copy" [salary; rent])).
  exact Hperm.
Defined.
